(** * Root layout of the application (src/app/layout.tsx)

    The module under study is a single React component, [RootLayout], that
    builds the document shell around the page content handed to it by the
    framework's router, together with the module-level bindings it reads.

    The development has three parts:
    - the data the component manipulates: React nodes and element props;
    - the effects a JavaScript function may have on its module scope,
      as a small state-and-exception monad;
    - the module itself: its directive, its import declarations, its
      module-level constant [inter] and the component. *)

From Stdlib Require Import ZArith.
From stdpp Require Import gmap strings list fin_maps.

(** ** React nodes *)

(** Values an attribute of an element can take in this module: the props
    object of an element is a JS object used as a map from attribute names
    to values. *)
Inductive PropValue : Type :=
  | PString (s : string)
  | PNumber (n : Z)
  | PBool (b : bool).

(** The first argument of an element: a lower-case JSX tag names a host
    element ([<html>], [<body>]), a capitalised one refers to a component
    bound in the module scope ([<Providers>]). *)
Inductive ElementType : Type :=
  | Host (tag : string)
  | Component (name : string).

(** [React.ReactNode]: what a component may receive as [children].
    An element carries its type, its props without [children], and
    [props.children], itself a node ([RUndefined] when the tag is empty). *)
#[local] Unset Elimination Schemes.
Inductive ReactNode : Type :=
  | RNull
  | RUndefined
  | RBool (b : bool)
  | RText (s : string)
  | RNumber (n : Z)
  | RArray (items : list ReactNode)
  | RElement (type : ElementType) (props : gmap string PropValue)
             (children : ReactNode).
#[local] Set Elimination Schemes.

(** Induction on nodes, with the hypothesis available for every item of an
    array. *)
Fixpoint ReactNode_nested_ind (P : ReactNode → Prop)
    (Hnull : P RNull) (Hundef : P RUndefined)
    (Hbool : ∀ b, P (RBool b)) (Htext : ∀ s, P (RText s))
    (Hnum : ∀ n, P (RNumber n))
    (Harr : ∀ items, Forall P items → P (RArray items))
    (Helem : ∀ ty ps c, P c → P (RElement ty ps c))
    (t : ReactNode) : P t :=
  let rec := ReactNode_nested_ind P Hnull Hundef Hbool Htext Hnum Harr Helem in
  match t with
  | RNull => Hnull
  | RUndefined => Hundef
  | RBool b => Hbool b
  | RText s => Htext s
  | RNumber n => Hnum n
  | RArray items =>
      Harr items
        ((fix all (l : list ReactNode) : Forall P l :=
            match l with
            | [] => Forall_nil_2 P
            | x :: l' => Forall_cons_2 P x l' (rec x) (all l')
            end) items)
  | RElement ty ps c => Helem ty ps c (rec c)
  end.

#[global] Instance PropValue_eq_dec : EqDecision PropValue.
Proof. solve_decision. Defined.

#[global] Instance ElementType_eq_dec : EqDecision ElementType.
Proof. solve_decision. Defined.

(** What a JSX tag [<type props>children</type>] evaluates to. *)
Definition jsx (type : ElementType) (props : gmap string PropValue)
    (children : ReactNode) : ReactNode :=
  RElement type props children.

(** *** Observations on nodes *)

Definition element_type (t : ReactNode) : option ElementType :=
  match t with
  | RElement ty _ _ => Some ty
  | _ => None
  end.

Definition element_props (t : ReactNode) : option (gmap string PropValue) :=
  match t with
  | RElement _ ps _ => Some ps
  | _ => None
  end.

Definition element_children (t : ReactNode) : option ReactNode :=
  match t with
  | RElement _ _ c => Some c
  | _ => None
  end.

(** [t.props[name]] *)
Definition attribute (name : string) (t : ReactNode) : option PropValue :=
  element_props t ≫= (.!! name).

(** Replace [props.children] of an element; other nodes have no such slot. *)
Definition update_children (f : ReactNode → ReactNode) (t : ReactNode)
    : ReactNode :=
  match t with
  | RElement ty ps c => RElement ty ps (f c)
  | _ => t
  end.

(** The tags of the host elements of a tree, parents before children. *)
Fixpoint host_tags (t : ReactNode) : list string :=
  match t with
  | RElement ty _ c =>
      match ty with
      | Host tag => tag :: host_tags c
      | Component _ => host_tags c
      end
  | RArray items => items ≫= host_tags
  | _ => []
  end.

(** Number of host elements with tag [tag] anywhere in a tree. *)
Fixpoint count_host (tag : string) (t : ReactNode) : nat :=
  match t with
  | RElement ty _ c =>
      (if decide (ty = Host tag) then 1 else 0) + count_host tag c
  | RArray items => sum_list_with (count_host tag) items
  | _ => 0
  end.


(** ** Effects of a JavaScript function

    A function body runs against the scope of its module: it can read and
    assign the module's bindings, and it either returns a value or throws.
    Both outcomes carry the scope the call leaves behind. *)

Inductive Exception : Type :=
  | TypeError (msg : string)
  | Error (msg : string).

(** The result of [Inter(...)] from [next/font/google]; the layout reads
    its [className] only. *)
Record NextFont : Type := { className : string }.

(** The options object passed to a font loader; the layout sets [subsets]
    and leaves every other option out. *)
Record FontOptions : Type := { subsets : list string }.

(** Module-level bindings of layout.tsx that live as long as the module. *)
Record ModuleScope : Type := { inter : NextFont }.

Inductive Outcome (A : Type) : Type :=
  | Returned (a : A) (σ : ModuleScope)
  | Thrown (e : Exception) (σ : ModuleScope).
Arguments Returned {A} a σ.
Arguments Thrown {A} e σ.

Definition Js (A : Type) : Type := ModuleScope → Outcome A.

#[global] Instance Js_ret : MRet Js := λ A a σ, Returned a σ.

#[global] Instance Js_bind : MBind Js := λ A B k m σ,
  match m σ with
  | Returned a σ' => k a σ'
  | Thrown e σ' => Thrown e σ'
  end.

Definition throw {A : Type} (e : Exception) : Js A := λ σ, Thrown e σ.

(** Read a module binding. *)
Definition read {A : Type} (field : ModuleScope → A) : Js A :=
  λ σ, Returned (field σ) σ.

(** Overwrite the module scope. *)
Definition write (σ' : ModuleScope) : Js unit := λ _, Returned tt σ'.

Definition final_scope {A : Type} (o : Outcome A) : ModuleScope :=
  match o with
  | Returned _ σ => σ
  | Thrown _ σ => σ
  end.

Definition returned_value {A : Type} (o : Outcome A) : option A :=
  match o with
  | Returned a _ => Some a
  | Thrown _ _ => None
  end.

Definition is_thrown {A : Type} (o : Outcome A) : bool :=
  match o with
  | Returned _ _ => false
  | Thrown _ _ => true
  end.

(** ** The module layout.tsx *)

(** *** Directive and import declarations (lines 1 to 6) *)

Inductive ImportDecl : Type :=
  | ImportSideEffect (specifier : string)
  | ImportNamed (names : list string) (specifier : string).

#[global] Instance ImportDecl_eq_dec : EqDecision ImportDecl.
Proof. solve_decision. Defined.

Definition directives : list string := ["use client"].

Definition imports : list ImportDecl :=
  [ ImportSideEffect "./globals.css";
    ImportNamed ["Inter"] "next/font/google";
    ImportNamed ["Providers"] "./providers";
    ImportSideEffect "molstar/build/viewer/molstar.css" ].

Definition specifier_of (d : ImportDecl) : string :=
  match d with
  | ImportSideEffect s => s
  | ImportNamed _ s => s
  end.

Definition bound_names (d : ImportDecl) : list string :=
  match d with
  | ImportSideEffect _ => []
  | ImportNamed ns _ => ns
  end.

(** The module a name of the module scope was imported from, if any. *)
Definition resolve (name : string) (ds : list ImportDecl) : option string :=
  specifier_of ∘ snd <$> list_find (λ d, name ∈ bound_names d) ds.

(** [s] ends with [suffix]. *)
Definition ends_with (suffix s : string) : bool :=
  bool_decide (suffix = String.substring
                          (String.length s - String.length suffix)
                          (String.length suffix) s).

Definition is_stylesheet (d : ImportDecl) : bool :=
  match d with
  | ImportSideEffect s => ends_with ".css" s
  | ImportNamed _ _ => false
  end.

(** *** The constant [inter] (line 8) *)

Section Module_evaluation.

(** [Inter], the font loader imported from [next/font/google]. *)
Variable Inter : FontOptions → NextFont.

(** The scope left by evaluating the module's top level:
    [const inter = Inter({ subsets: ["latin"] })]. *)
Definition module_init : ModuleScope :=
  {| inter := Inter {| subsets := ["latin"] |} |}.

End Module_evaluation.

(** *** The component (lines 10 to 22) *)

(** The component imported from [./providers]. *)
Definition Providers : ElementType := Component "Providers".

Definition RootLayout (children : ReactNode) : Js ReactNode :=
  font ← read inter;
  mret (jsx (Host "html") {[ "lang" := PString "en" ]}
         (jsx (Host "body") {[ "className" := PString (className font) ]}
            (jsx Providers ∅ children))).

(** The page slot of a document shell: the children of the element inside
    the element inside the root. *)
Definition page_slot (t : ReactNode) : option ReactNode :=
  body ← element_children t;
  wrapper ← element_children body;
  element_children wrapper.

(** The [className] of the element inside the root of a document shell. *)
Definition body_class (t : ReactNode) : option PropValue :=
  body ← element_children t;
  attribute "className" body.

(** Put [page] in the page slot of a document shell. *)
Definition set_page_slot (page : ReactNode) (t : ReactNode) : ReactNode :=
  update_children (update_children (update_children (λ _, page))) t.

(** Two renders of the component, the second in the scope the first left. *)
Definition render_twice (c1 c2 : ReactNode) : Js (ReactNode * ReactNode) :=
  t1 ← RootLayout c1;
  t2 ← RootLayout c2;
  mret (t1, t2).

(** The layout rendered for a sequence of pages, one after the other, each
    render in the scope the previous one left. *)
Definition render_all (pages : list ReactNode) : Js (list ReactNode) :=
  mapM RootLayout pages.

(** ** Sample inputs *)

(** A font loader standing for [Inter]: the class name records the subsets
    asked for. *)
Definition sample_Inter (o : FontOptions) : NextFont :=
  {| className := String.concat "_" ("__className" :: subsets o) |}.

Definition sample_scope : ModuleScope := module_init sample_Inter.

(** A page: [<main id="app">Hello<div/>{null}</main>] *)
Definition sample_page : ReactNode :=
  jsx (Host "main") {[ "id" := PString "app" ]}
    (RArray [RText "Hello"; jsx (Host "div") ∅ RUndefined; RNull]).

(** * Properties *)

(** ** The monad *)

Lemma bind_returned {A B : Type} (m : Js A) (k : A → Js B) a σ σ' :
  m σ = Returned a σ' → (m ≫= k) σ = k a σ'.
Proof. intros Hm. unfold mbind, Js_bind. by rewrite Hm. Qed.

Lemma bind_thrown {A B : Type} (m : Js A) (k : A → Js B) e σ σ' :
  m σ = Thrown e σ' → (m ≫= k) σ = Thrown e σ'.
Proof. intros Hm. unfold mbind, Js_bind. by rewrite Hm. Qed.

Lemma read_returned {A : Type} (field : ModuleScope → A) σ :
  read field σ = Returned (field σ) σ.
Proof. reflexivity. Qed.

Lemma mret_returned {A : Type} (a : A) σ : (mret a : Js A) σ = Returned a σ.
Proof. reflexivity. Qed.

(** A body that assigns or throws is told apart from one that does not. *)
Lemma write_final_scope σ σ' : final_scope (write σ' σ) = σ'.
Proof. reflexivity. Qed.

Lemma throw_is_thrown {A : Type} e σ : is_thrown (throw (A:=A) e σ) = true.
Proof. reflexivity. Qed.

(** ** Nodes *)

Lemma count_host_jsx tag ty ps c :
  count_host tag (jsx ty ps c)
  = (if decide (ty = Host tag) then 1 else 0) + count_host tag c.
Proof. reflexivity. Qed.

Lemma count_host_jsx_host tag tag' ps c :
  count_host tag (jsx (Host tag') ps c)
  = (if decide (tag' = tag) then 1 else 0) + count_host tag c.
Proof.
  rewrite count_host_jsx.
  destruct (decide (tag' = tag)) as [->|Hne].
  - by rewrite decide_True.
  - rewrite decide_False; [done | congruence].
Qed.

Lemma count_host_jsx_component tag name ps c :
  count_host tag (jsx (Component name) ps c) = count_host tag c.
Proof. rewrite count_host_jsx. by rewrite decide_False. Qed.

(** Counting the elements with a tag is counting the tag among the host
    tags of the tree. *)
Lemma count_host_tags tag t :
  count_host tag t = length (filter (λ x, x = tag) (host_tags t)).
Proof.
  induction t as [| | | | |items IH|ty ps c IH] using ReactNode_nested_ind;
    try reflexivity.
  - simpl. induction IH as [|x l Hx _ IHl]; [reflexivity |].
    cbn [sum_list_with mbind list_bind]. fold (mbind (M:=list) host_tags l).
    rewrite filter_app, length_app. by rewrite Hx, IHl.
  - destruct ty as [tag'|name]; simpl.
    + rewrite filter_cons. destruct (decide (tag' = tag)) as [->|Hne].
      * rewrite decide_True by done. simpl. by rewrite IH.
      * rewrite decide_False by congruence. by rewrite IH.
    + exact IH.
Qed.

Lemma element_children_update f t c :
  element_children t = Some c →
  element_children (update_children f t) = Some (f c).
Proof. destruct t; simpl; congruence. Qed.

Lemma element_type_update f t :
  element_type (update_children f t) = element_type t.
Proof. by destruct t. Qed.

Lemma element_props_update f t :
  element_props (update_children f t) = element_props t.
Proof. by destruct t. Qed.

(** Replacing the children never changes how many host elements sit
    outside them. *)
Lemma count_host_update tag f t c :
  element_children t = Some c →
  count_host tag (update_children f t) + count_host tag c
  = count_host tag t + count_host tag (f c).
Proof. destruct t; simpl; intros [= ->]; lia. Qed.

(** Filling the page slot of a tree that has one puts the page there and
    leaves the elements around it as they were. *)
Lemma page_slot_set_page_slot page t old :
  page_slot t = Some old →
  page_slot (set_page_slot page t) = Some page ∧
  element_type (set_page_slot page t) = element_type t ∧
  element_props (set_page_slot page t) = element_props t.
Proof.
  unfold page_slot, set_page_slot. intros Hslot.
  destruct (element_children t) as [body|] eqn:Hbody; [| discriminate].
  simpl in Hslot.
  destruct (element_children body) as [wrapper|] eqn:Hwrapper;
    [| discriminate].
  simpl in Hslot.
  split; [| by rewrite element_type_update, element_props_update].
  rewrite (element_children_update _ _ _ Hbody). simpl.
  rewrite (element_children_update _ _ _ Hwrapper). simpl.
  by rewrite (element_children_update _ _ _ Hslot).
Qed.

(** ** The component *)

(** The value the body of [RootLayout] evaluates to, and the scope it leaves. *)
Lemma RootLayout_returns children σ :
  RootLayout children σ
  = Returned
      (jsx (Host "html") {[ "lang" := PString "en" ]}
         (jsx (Host "body")
            {[ "className" := PString (className (inter σ)) ]}
            (jsx Providers ∅ children)))
      σ.
Proof.
  unfold RootLayout.
  rewrite (bind_returned _ _ _ _ _ (read_returned inter σ)).
  apply mret_returned.
Qed.

Lemma render_twice_returns c1 c2 σ t1 t2 :
  RootLayout c1 σ = Returned t1 σ →
  RootLayout c2 σ = Returned t2 σ →
  render_twice c1 c2 σ = Returned (t1, t2) σ.
Proof.
  intros H1 H2. unfold render_twice.
  rewrite (bind_returned _ _ _ _ _ H1), (bind_returned _ _ _ _ _ H2).
  apply mret_returned.
Qed.

Example RootLayout_sample :
  RootLayout sample_page sample_scope
  = Returned
      (RElement (Host "html") {[ "lang" := PString "en" ]}
         (RElement (Host "body")
            {[ "className" := PString "__className_latin" ]}
            (RElement (Component "Providers") ∅ sample_page)))
      sample_scope.
Proof. reflexivity. Qed.

Example RootLayout_sample_tags :
  host_tags <$> returned_value (RootLayout sample_page sample_scope)
  = Some ["html"; "body"; "main"; "div"].
Proof. reflexivity. Qed.

(** Children that themselves hold an [html] element are embedded as they
    are; the shell still adds one [html] element of its own. *)
Example RootLayout_nested_html :
  count_host "html" <$>
    returned_value (RootLayout (jsx (Host "html") ∅ RNull) sample_scope)
  = Some 2.
Proof. reflexivity. Qed.

Example RootLayout_null_children :
  page_slot <$> returned_value (RootLayout RNull sample_scope)
  = Some (Some RNull).
Proof. reflexivity. Qed.

(** C1. For every children input, [RootLayout] returns a tree whose root is
    a single [html] host element; the content of that root is a single
    [body] host element; the content of the body is a single [Providers]
    element with no attribute of its own, whose content is the given
    children.  The shell contributes exactly one [html] and one [body]
    element to the tree: every other one comes from the children. *)
Theorem RootLayout_document_structure (children : ReactNode) (σ : ModuleScope) :
  ∃ root body wrapper,
    RootLayout children σ = Returned root σ ∧
    element_type root = Some (Host "html") ∧
    element_children root = Some body ∧
    element_type body = Some (Host "body") ∧
    element_children body = Some wrapper ∧
    element_type wrapper = Some Providers ∧
    element_props wrapper = Some ∅ ∧
    element_children wrapper = Some children ∧
    count_host "html" root = 1 + count_host "html" children ∧
    count_host "body" root = 1 + count_host "body" children.
Proof.
  eexists _, _, _. split; [apply RootLayout_returns |].
  repeat (split; [reflexivity |]).
  unfold Providers.
  split;
    rewrite !count_host_jsx_host, count_host_jsx_component;
    repeat case_decide; done.
Qed.

(** C2. For every children input, the subtree found in the page slot of
    the tree returned by [RootLayout] is the input itself, whatever kind of
    node it is: nothing is transformed, checked or dropped. *)
Theorem RootLayout_children_unchanged (children : ReactNode) (σ : ModuleScope) :
  ∃ root,
    RootLayout children σ = Returned root σ ∧
    page_slot root = Some children.
Proof.
  eexists. split; [apply RootLayout_returns | reflexivity].
Qed.

(** C3. [RootLayout] is total and has no error branch: on every children
    input and in every module scope the call returns and never throws, and
    what it returns is the rendered document shell: the [html] element with
    [lang] set to ["en"], holding the [body] element with the font's class
    name, holding the [Providers] element around the given children. *)
Theorem RootLayout_total (children : ReactNode) (σ : ModuleScope) :
  is_thrown (RootLayout children σ) = false ∧
  ∃ root body wrapper,
    RootLayout children σ = Returned root σ ∧
    returned_value (RootLayout children σ) = Some root ∧
    root
    = jsx (Host "html") {[ "lang" := PString "en" ]}
        (jsx (Host "body")
           {[ "className" := PString (className (inter σ)) ]}
           (jsx Providers ∅ children)) ∧
    element_type root = Some (Host "html") ∧
    element_children root = Some body ∧
    element_type body = Some (Host "body") ∧
    element_children body = Some wrapper ∧
    element_type wrapper = Some Providers ∧
    element_children wrapper = Some children.
Proof.
  rewrite RootLayout_returns. split; [reflexivity |].
  eexists _, _, _. split; [reflexivity |].
  split; [reflexivity |].
  split; [reflexivity |].
  repeat split; reflexivity.
Qed.

(** C4. Rendering is pure and deterministic: two invocations on equal
    children give equal outcomes, also when the second runs in the scope the
    first left behind, and an invocation leaves the module scope as it found
    it. *)
Theorem RootLayout_pure (c1 c2 : ReactNode) (σ : ModuleScope) :
  c1 = c2 →
  RootLayout c1 σ = RootLayout c2 σ ∧
  final_scope (RootLayout c1 σ) = σ ∧
  ∃ root, render_twice c1 c2 σ = Returned (root, root) σ.
Proof.
  intros <-. split; [reflexivity |].
  rewrite RootLayout_returns. split; [reflexivity |].
  eexists. apply render_twice_returns; apply RootLayout_returns.
Qed.

Lemma RootLayout_pure_witness :
  RootLayout sample_page sample_scope = RootLayout sample_page sample_scope ∧
  final_scope (RootLayout sample_page sample_scope) = sample_scope ∧
  ∃ root,
    render_twice sample_page sample_page sample_scope
    = Returned (root, root) sample_scope.
Proof.
  apply (RootLayout_pure sample_page sample_page sample_scope).
  reflexivity.
Defined.

(** C5. For every children input, the [body] element of the tree returned
    by [RootLayout] in the scope of the evaluated module has as [className]
    the class name of the font [Inter] loaded with the subset [latin]. *)
Theorem body_className_is_inter (Inter : FontOptions → NextFont)
    (children : ReactNode) :
  ∃ root body,
    RootLayout children (module_init Inter)
    = Returned root (module_init Inter) ∧
    element_children root = Some body ∧
    element_type body = Some (Host "body") ∧
    attribute "className" body
    = Some (PString (className (Inter {| subsets := ["latin"] |}))).
Proof.
  eexists _, _. split; [apply RootLayout_returns |].
  do 2 (split; [reflexivity |]).
  unfold attribute. simpl. apply lookup_singleton_eq.
Qed.

(** C6. The module imports exactly four things: the global stylesheet and
    the molecular viewer's stylesheet, both for their effect only, the font
    loader [Inter] from the framework's font module, and the component
    [Providers] from the providers module; the component the layout renders
    around the page is that imported [Providers]. *)
Theorem imports_exactly_declared :
  (∀ d, d ∈ imports ↔
        d = ImportSideEffect "./globals.css" ∨
        d = ImportSideEffect "molstar/build/viewer/molstar.css" ∨
        d = ImportNamed ["Inter"] "next/font/google" ∨
        d = ImportNamed ["Providers"] "./providers") ∧
  NoDup imports ∧
  filter is_stylesheet imports
  = [ImportSideEffect "./globals.css";
     ImportSideEffect "molstar/build/viewer/molstar.css"] ∧
  imports ≫= bound_names = ["Inter"; "Providers"] ∧
  resolve "Inter" imports = Some "next/font/google" ∧
  resolve "Providers" imports = Some "./providers" ∧
  Providers = Component "Providers".
Proof.
  split; [| split].
  - intros d. unfold imports.
    rewrite !elem_of_cons, elem_of_nil. tauto.
  - compute_done.
  - repeat split; vm_compute; reflexivity.
Qed.

(** C7. For every children input, the root [html] element of the tree
    returned by [RootLayout] has the attribute [lang] set to ["en"]. *)
Theorem html_lang_en (children : ReactNode) (σ : ModuleScope) :
  ∃ root,
    RootLayout children σ = Returned root σ ∧
    element_type root = Some (Host "html") ∧
    attribute "lang" root = Some (PString "en").
Proof.
  eexists. split; [apply RootLayout_returns |].
  split; [reflexivity |].
  unfold attribute. simpl. apply lookup_singleton_eq.
Qed.

(** C8. The document shell does not depend on the children: the trees
    returned for two children inputs become equal once the page slot of the
    first is filled with the second input, and the [html] element, its
    [lang] attribute, the [body] element and its [className] are the same in
    both. *)
Theorem shell_independent_of_children (c1 c2 : ReactNode) (σ : ModuleScope) :
  ∃ root1 root2 body1 body2,
    RootLayout c1 σ = Returned root1 σ ∧
    RootLayout c2 σ = Returned root2 σ ∧
    set_page_slot c2 root1 = root2 ∧
    page_slot root1 = Some c1 ∧
    page_slot root2 = Some c2 ∧
    element_type root1 = element_type root2 ∧
    element_props root1 = element_props root2 ∧
    attribute "lang" root1 = attribute "lang" root2 ∧
    element_children root1 = Some body1 ∧
    element_children root2 = Some body2 ∧
    element_type body1 = element_type body2 ∧
    element_props body1 = element_props body2 ∧
    attribute "className" body1 = attribute "className" body2.
Proof.
  eexists _, _, _, _.
  split; [apply RootLayout_returns |].
  split; [apply RootLayout_returns |].
  repeat split; reflexivity.
Qed.

(** ** Further properties of the component *)

Lemma mapM_cons_returned {A B : Type} (f : A → Js B) x l y ys σ σ' σ'' :
  f x σ = Returned y σ' →
  mapM f l σ' = Returned ys σ'' →
  mapM f (x :: l) σ = Returned (y :: ys) σ''.
Proof.
  intros Hx Hl. cbn [mapM].
  rewrite (bind_returned _ _ _ _ _ Hx), (bind_returned _ _ _ _ _ Hl).
  apply mret_returned.
Qed.

(** X1. The shell puts exactly two host elements around the page, [html]
    then [body], and no other: the host tags of the returned tree are those
    two followed by the host tags of the children, so the number of elements
    of any other tag ([head], [div], ...) is the number found in the
    children. *)
Theorem RootLayout_host_tags (children : ReactNode) (σ : ModuleScope) :
  ∃ root,
    RootLayout children σ = Returned root σ ∧
    host_tags root = "html" :: "body" :: host_tags children ∧
    ∀ tag,
      count_host tag root
      = (if decide (tag ∈ ["html"; "body"]) then 1 else 0)
        + count_host tag children.
Proof.
  eexists. split; [apply RootLayout_returns |].
  split; [reflexivity |].
  intros tag. rewrite !count_host_tags. cbn [jsx host_tags Providers].
  rewrite !filter_cons.
  destruct (decide ("html" = tag)) as [<-|Hhtml].
  - rewrite decide_False by discriminate.
    rewrite decide_True by (apply elem_of_cons; by left). reflexivity.
  - destruct (decide ("body" = tag)) as [<-|Hbody].
    + rewrite decide_True by (apply elem_of_cons; right; apply elem_of_cons;
                              by left).
      reflexivity.
    + rewrite decide_False; [reflexivity |].
      rewrite !elem_of_cons, elem_of_nil. intros [->|[->|[]]]; congruence.
Qed.


(** X3. The elements of the shell carry no attribute besides the ones
    written in the source: [lang] is the only attribute of [html],
    [className] the only attribute of [body], and [Providers] receives no
    prop besides its children. *)
Theorem RootLayout_attributes (children : ReactNode) (σ : ModuleScope) :
  ∃ root body wrapper,
    RootLayout children σ = Returned root σ ∧
    element_children root = Some body ∧
    element_children body = Some wrapper ∧
    ∀ name,
      attribute name root
      = (if decide (name = "lang") then Some (PString "en") else None) ∧
      attribute name body
      = (if decide (name = "className")
         then Some (PString (className (inter σ))) else None) ∧
      attribute name wrapper = None.
Proof.
  eexists _, _, _. split; [apply RootLayout_returns |].
  do 2 (split; [reflexivity |]).
  intros name. unfold attribute. cbn [jsx element_props mbind option_bind].
  rewrite !lookup_singleton, lookup_empty.
  repeat split; repeat case_decide; congruence.
Qed.

(** X4. Nothing of the input is lost or merged: two renders return the
    same tree exactly when they were given the same children and the font
    class names in their scopes agree. *)
Theorem RootLayout_tree_injective (c1 c2 : ReactNode) (σ1 σ2 : ModuleScope) :
  returned_value (RootLayout c1 σ1) = returned_value (RootLayout c2 σ2)
  ↔ c1 = c2 ∧ className (inter σ1) = className (inter σ2).
Proof.
  rewrite !RootLayout_returns. cbn [returned_value]. split.
  - intros Htree. split.
    + apply (f_equal (λ o : option ReactNode, o ≫= page_slot)) in Htree.
      cbn in Htree. congruence.
    + apply (f_equal (λ o : option ReactNode, o ≫= body_class)) in Htree.
      unfold body_class, attribute in Htree.
      cbn [jsx element_children element_props mbind option_bind] in Htree.
      rewrite !lookup_singleton_eq in Htree. congruence.
  - intros [-> ->]. reflexivity.
Qed.

(** X5. Rendering the layout for any sequence of pages, one render after the
    other, returns one tree per page, each the tree a single render of that
    page returns in the initial scope, and the module scope at the end is the
    scope at the start. *)
Theorem render_all_returns (pages : list ReactNode) (σ : ModuleScope) :
  ∃ roots,
    render_all pages σ = Returned roots σ ∧
    length roots = length pages ∧
    Forall2 (λ page root, RootLayout page σ = Returned root σ ∧
                          page_slot root = Some page) pages roots.
Proof.
  unfold render_all. induction pages as [|page pages IH].
  - exists []. repeat split. constructor.
  - destruct IH as (roots & Hrun & Hlen & Hall).
    eexists (_ :: roots). split; [| split].
    + exact (mapM_cons_returned _ _ _ _ _ _ _ _
               (RootLayout_returns page σ) Hrun).
    + simpl. by rewrite Hlen.
    + constructor; [| exact Hall].
      split; [apply RootLayout_returns | reflexivity].
Qed.
